(** * The admission webhook's decision function and server bootstrap

    A shallow embedding of [cmd/webhook-server/main.go]:
    [applySecurityDefaults], the decision function plugged into the
    admission handler, and [main], which binds it to a URL path and
    starts the TLS listener.

    Go maps are reference objects.  They live in a store of map
    objects, addressed by location, so that the working map
    [containerComputeunitMap] and the pod's annotation map are two
    objects of one heap and a write to one could, in principle, be a
    write to the other.  The code runs in a small state monad over
    that store; a Go panic is an outcome of its own. *)

From Stdlib.Strings Require Import String Ascii Byte.
From Stdlib Require Import List.
From stdpp Require Import gmap strings list fin_maps.

Local Open Scope string_scope.

(** ** Go's [strings] helpers *)

Module gostrings.

Fixpoint drop (n : nat) (s : string) : string :=
  match n, s with
  | O, _ => s
  | S _, EmptyString => EmptyString
  | S n', String _ s' => drop n' s'
  end.

(** [strings.HasPrefix(s, prefix)] *)
Definition HasPrefix (s prefix : string) : bool := String.prefix prefix s.

(** [strings.TrimPrefix(s, prefix)]: [s] without the leading [prefix],
    and [s] itself when it does not start with it. *)
Definition TrimPrefix (s prefix : string) : string :=
  if HasPrefix s prefix then drop (String.length prefix) s else s.

(** [strings.Join(elems, sep)] *)
Fixpoint Join (elems : list string) (sep : string) : string :=
  match elems with
  | [] => ""
  | [e] => e
  | e :: rest => e ++ sep ++ Join rest sep
  end.

(** [strings.Split(s, sep)] for a one-character separator. *)
Fixpoint Split (s : string) (sep : ascii) : list string :=
  match s with
  | EmptyString => [""]
  | String c s' =>
      if Ascii.eqb c sep then "" :: Split s' sep
      else match Split s' sep with
           | [] => [String c ""]
           | w :: ws => String c w :: ws
           end
  end.

End gostrings.

(** ** The Kubernetes API types the function reads *)

Module metav1.

Record GroupVersionResource := {
  Group : string;
  Version : string;
  Resource : string
}.

Record GroupVersionKind := {
  KGroup : string;
  KVersion : string;
  Kind : string
}.

(** Go compares structs field by field. *)
Definition gvr_eqb (a b : GroupVersionResource) : bool :=
  String.eqb (Group a) (Group b)
  && String.eqb (Version a) (Version b)
  && String.eqb (Resource a) (Resource b).

End metav1.

Module corev1.

Record Container := {
  Name : string;
  Image : string
}.

Record PodSpec := {
  Containers : list Container
}.

(** A pod, over the representation [A] of its annotation map: the
    deserializer reads a map value off the bytes ([A] is a finite
    map), the pod in memory holds a reference to a map object ([A] is
    a location). *)
Record PodOf (A : Type) := {
  ObjectName : string;
  Namespace : string;
  Annotations : A;
  Spec : PodSpec
}.
Arguments ObjectName {A} _.
Arguments Namespace {A} _.
Arguments Annotations {A} _.
Arguments Spec {A} _.

End corev1.

Module v1beta1.

Record RawExtension := {
  Raw : list byte
}.

Record UserInfo := {
  Username : string;
  UserUID : string;
  Groups : list string
}.

Record AdmissionRequest := {
  UID : string;
  Kind : metav1.GroupVersionKind;
  Resource : metav1.GroupVersionResource;
  SubResource : string;
  Name : string;
  Namespace : string;
  Operation : string;
  User : UserInfo;
  Object : RawExtension;
  OldObject : RawExtension;
  DryRun : option bool
}.

End v1beta1.

(** Modelled from the spec: the type [patchOperation] is declared in a
  file of the repository that is not part of the sources at hand.  The
  spec gives it an operation kind, a slash-delimited path and a value
  that is absent for a removal. *)
Record patchOperation := {
Op : string;
Path : string;
Value : option string
}.

(** Go's [error]: [None] is the nil error, [Some msg] an error whose
  [Error()] is [msg]. *)
Definition error := option string.

(** ** The store of map objects and the monad of the code *)

Definition loc := positive.

Inductive Event :=
| EvLogPrintf (format : string) (arg : metav1.GroupVersionResource)
| EvDecode (raw : list byte).

Record Store := {
maps : gmap loc (gmap string string);
trace : list Event
}.

Inductive Res (A : Type) :=
| Ok (a : A) (σ : Store)
| Panic (reason : string).
Arguments Ok {A} _ _.
Arguments Panic {A} _.

Definition M (A : Type) := Store → Res A.

(** The store with the map object at [l] replaced. *)
Definition set_map (l : loc) (m : gmap string string) (σ : Store) : Store :=
  {| maps := <[l := m]> (maps σ); trace := trace σ |}.

(** The store with one more event in its trace. *)
Definition record (e : Event) (σ : Store) : Store :=
  {| maps := maps σ; trace := trace σ ++ [e] |}.

Definition ret {A} (a : A) : M A := fun σ => Ok a σ.

Definition bind {A B} (m : M A) (k : A → M B) : M B :=
fun σ => match m σ with
         | Ok a σ' => k a σ'
         | Panic r => Panic r
         end.

Notation "'let*' x := m 'in' k" := (bind m (fun x => k))
  (at level 10, x name, m at level 100, k at level 200).
Notation "m >>> k" := (bind m (fun _ => k))
  (at level 100, k at level 200, right associativity).

(** The order in which [range] visits the entries of a map is not
  specified by Go, and differs from run to run.  A [RangeOrder] is one
  choice of that order: some enumeration of the entries. *)
Record RangeOrder := {
range_of :> gmap string string → list (string * string);
range_of_perm : ∀ m, range_of m ≡ₚ map_to_list m
}.

(** [map[string]string{}]: a fresh, empty map object. *)
Definition make_map : M loc := fun σ =>
  let l := fresh (dom (maps σ)) in
  Ok l (set_map l ∅ σ).

(** The map a reference denotes; a reference to no object is the nil
    map, which reads as the empty map. *)
Definition deref (σ : Store) (l : loc) : gmap string string :=
  default ∅ (maps σ !! l).

(** [v, ok := m[k]]; the zero value of a string is [""]. *)
Definition map_index2 (l : loc) (k : string) : M (string * bool) := fun σ =>
  match deref σ l !! k with
  | Some v => Ok (v, true) σ
  | None => Ok ("", false) σ
  end.

(** [m[k]] *)
Definition map_index (l : loc) (k : string) : M string :=
  let* p := map_index2 l k in ret (fst p).

(** [m[k] = v]; a write to the nil map panics. *)
Definition map_assign (l : loc) (k v : string) : M unit := fun σ =>
  match maps σ !! l with
  | Some m => Ok tt (set_map l (<[k := v]> m) σ)
  | None => Panic "assignment to entry in nil map"
  end.

(** [delete(m, k)]; on the nil map it does nothing. *)
Definition map_delete (l : loc) (k : string) : M unit := fun σ =>
  match maps σ !! l with
  | Some m => Ok tt (set_map l (delete k m) σ)
  | None => Ok tt σ
  end.

(** [len(m)] *)
Definition map_len (l : loc) : M nat := fun σ => Ok (size (deref σ l)) σ.

(** The entries [for k, v := range m] visits, in the order of [iter]. *)
Definition map_range (iter : RangeOrder) (l : loc) : M (list (string * string)) :=
  fun σ => Ok (iter (deref σ l)) σ.

(** [log.Printf(format, arg)] *)
Definition log_Printf (format : string) (arg : metav1.GroupVersionResource) : M unit :=
  fun σ => Ok tt (record (EvLogPrintf format arg) σ).

(** ** The decision function *)

Definition podResource : metav1.GroupVersionResource :=
  {| metav1.Group := ""; metav1.Version := "v1"; metav1.Resource := "pods" |}.

(** What the deserializer makes of a payload: a pod, or the message of
    the error it reports. *)
Definition Deserializer := list byte → corev1.PodOf (gmap string string) + string.

(** The pod in memory: its annotations are a reference to a map object. *)
Definition Pod := corev1.PodOf loc.

Definition in_memory (l : loc) (p : corev1.PodOf (gmap string string)) : Pod :=
  {| corev1.ObjectName := corev1.ObjectName p;
     corev1.Namespace := corev1.Namespace p;
     corev1.Annotations := l;
     corev1.Spec := corev1.Spec p |}.

(** [fmt.Errorf("could not deserialize pod object: %v", err)] *)
Definition Errorf_deserialize (err : string) : string :=
  "could not deserialize pod object: " ++ err.

Definition result : Type := list patchOperation * error.

Section decision.

Context (universalDeserializer : Deserializer) (iter : RangeOrder).

(** [universalDeserializer.Decode(raw, nil, &pod)]: on success the pod
    is filled in, its annotations in a map object of their own (an
    empty annotation map and an absent one read alike, and the function
    only reads them). *)
Definition Decode (raw : list byte) : M (Pod + string) := fun σ =>
  let σ1 := record (EvDecode raw) σ in
  match universalDeserializer raw with
  | inl p =>
      let l := fresh (dom (maps σ1)) in
      Ok (inl (in_memory l p)) (set_map l (corev1.Annotations p) σ1)
  | inr err => Ok (inr err) σ1
  end.

(** The first loop: [for k, v := range pod.Annotations], over the
    entries in the order they are visited. *)
Fixpoint range_annotations (containerComputeunitMap : loc)
    (entries : list (string * string)) : M unit :=
  match entries with
  | [] => ret tt
  | (k, v) :: rest =>
      (if gostrings.HasPrefix k "aic.4paradigm.com/computeunit/" then
         let containerName := gostrings.TrimPrefix k "aic.4paradigm.com/computeunit/" in
         map_assign containerComputeunitMap containerName v
       else ret tt) >>>
      range_annotations containerComputeunitMap rest
  end.

(** The second loop: [for _, pod := range pod.Spec.Containers]; it
    threads [computeunitList]. *)
Fixpoint range_containers (containerComputeunitMap : loc)
    (containers : list corev1.Container) (computeunitList : list string)
    : M (list string) :=
  match containers with
  | [] => ret computeunitList
  | pod :: rest =>
      let* found := map_index2 containerComputeunitMap (corev1.Name pod) in
      let '(computeunit, ok) := found in
      if ok then
        map_delete containerComputeunitMap (corev1.Name pod) >>>
        range_containers containerComputeunitMap rest (computeunitList ++ [computeunit])
      else
        range_containers containerComputeunitMap rest computeunitList
  end.

Definition applySecurityDefaults (req : v1beta1.AdmissionRequest) : M result :=
  if negb (metav1.gvr_eqb (v1beta1.Resource req) podResource) then
    log_Printf "expect resource to be %s" podResource >>>
    ret ([], None)
  else
    let raw := v1beta1.Raw (v1beta1.Object req) in
    let* decoded := Decode raw in
    match decoded with
    | inr err => ret ([], Some (Errorf_deserialize err))
    | inl pod =>
        let* app := map_index (corev1.Annotations pod) "aic.4paradigm.com/app" in
        if negb (String.eqb app "true") then ret ([], None)
        else
          let* containerComputeunitMap := make_map in
          let* entries := map_range iter (corev1.Annotations pod) in
          range_annotations containerComputeunitMap entries >>>
          let patches : list patchOperation := [] in
          let* computeunitList :=
            range_containers containerComputeunitMap
              (corev1.Containers (corev1.Spec pod)) [] in
          let* n := map_len containerComputeunitMap in
          if negb (Nat.eqb n 0) then ret ([], Some "unexpected computeunit")
          else ret (patches, None)
    end.

End decision.

(** ** What the two loops compute *)

Local Abbreviation computeunitPrefix := "aic.4paradigm.com/computeunit/".
Local Abbreviation appKey := "aic.4paradigm.com/app".

(** The working map after the first loop has visited [entries],
    starting from [m]. *)
Definition computeunits_of (entries : list (string * string))
    (m : gmap string string) : gmap string string :=
  foldl (fun acc entry =>
           if gostrings.HasPrefix (fst entry) "aic.4paradigm.com/computeunit/"
           then <[gostrings.TrimPrefix (fst entry) "aic.4paradigm.com/computeunit/" := snd entry]> acc
           else acc)
        m entries.

(** The working map and [computeunitList] after the second loop. *)
Fixpoint consume (containers : list corev1.Container)
    (m : gmap string string) (computeunitList : list string)
    : gmap string string * list string :=
  match containers with
  | [] => (m, computeunitList)
  | c :: rest =>
      match m !! corev1.Name c with
      | Some computeunit =>
          consume rest (delete (corev1.Name c) m) (computeunitList ++ [computeunit])
      | None => consume rest m computeunitList
      end
  end.

Definition outcome {A} (r : Res A) : option A :=
  match r with Ok a _ => Some a | Panic _ => None end.

(** What is left of the working map when both loops are over: the
    compute-unit annotations whose container the pod does not have. *)
Definition leftover (iter : RangeOrder) (p : corev1.PodOf (gmap string string))
    : gmap string string :=
  fst (consume (corev1.Containers (corev1.Spec p))
         (computeunits_of (iter (corev1.Annotations p)) ∅) []).

(** Whether the policy applies to a pod: the activation annotation is
    there and holds exactly ["true"]. *)
Definition activated (p : corev1.PodOf (gmap string string)) : bool :=
  String.eqb (default "" (corev1.Annotations p !! appKey)) "true".

(** The store once the payload has been decoded into a pod. *)
Definition decoded (raw : list byte) (p : corev1.PodOf (gmap string string))
    (σ : Store) : Store :=
  set_map (fresh (dom (maps σ))) (corev1.Annotations p) (record (EvDecode raw) σ).

(** The store at the end of a run on an activated pod: the working map
    sits next to the annotation map, in an object of its own. *)
Definition evaluated (iter : RangeOrder) (raw : list byte)
    (p : corev1.PodOf (gmap string string)) (σ : Store) : Store :=
  set_map (fresh (dom (maps (decoded raw p σ)))) (leftover iter p) (decoded raw p σ).

(** The result of a run, read off the request alone. *)
Definition verdict (universalDeserializer : Deserializer) (iter : RangeOrder)
    (req : v1beta1.AdmissionRequest) : result :=
  if negb (metav1.gvr_eqb (v1beta1.Resource req) podResource) then ([], None)
  else match universalDeserializer (v1beta1.Raw (v1beta1.Object req)) with
       | inr err => ([], Some (Errorf_deserialize err))
       | inl p =>
           if negb (activated p) then ([], None)
           else if negb (Nat.eqb (size (leftover iter p)) 0)
                then ([], Some "unexpected computeunit")
                else ([], None)
       end.

(** ** The server bootstrap *)

(** Go's [path/filepath], on a system whose separator is [/]. *)
Module filepath.

(** The components of a path that [Clean] keeps, most recent first in
    [kept]: empty components and [.] go, [..] takes the component before
    it along, and cannot climb above the root of a rooted path. *)
Fixpoint clean_components (rooted : bool) (kept : list string)
    (components : list string) : list string :=
  match components with
  | [] => reverse kept
  | c :: rest =>
      if String.eqb c "" || String.eqb c "." then clean_components rooted kept rest
      else if String.eqb c ".." then
        match kept with
        | top :: kept' =>
            if String.eqb top ".." then clean_components rooted (c :: kept) rest
            else clean_components rooted kept' rest
        | [] =>
            if rooted then clean_components rooted [] rest
            else clean_components rooted [c] rest
        end
      else clean_components rooted (c :: kept) rest
  end.

(** [filepath.Clean(path)] *)
Definition Clean (path : string) : string :=
  let rooted := gostrings.HasPrefix path "/" in
  let body := gostrings.Join (clean_components rooted [] (gostrings.Split path "/")) "/" in
  let cleaned := if rooted then "/" ++ body else body in
  if String.eqb cleaned "" then "." else cleaned.

(** [filepath.Join(elem...)]: the elements from the first non-empty one
    on, joined by the separator, and cleaned; the empty string when
    there is no such element. *)
Fixpoint Join (elem : list string) : string :=
  match elem with
  | [] => ""
  | e :: rest =>
      if String.eqb e "" then Join rest
      else Clean (gostrings.Join elem "/")
  end.

End filepath.

Module Bootstrap.

Definition tlsDir := "/run/secrets/tls".
Definition tlsCertFile := "tls.crt".
Definition tlsKeyFile := "tls.key".

(** The type of a decision function. *)
Definition admitFunc := v1beta1.AdmissionRequest → M result.

(** Modelled from the spec: [admitFuncHandler] is defined in a file of
    the repository that is not part of the sources at hand.  The spec
    has it adapt a decision function into the handler of an HTTP
    endpoint; here it is the handler that wraps that function. *)
Inductive Handler :=
| admitFuncHandler (f : admitFunc).

(** [http.ServeMux]: the handlers by pattern, in order of registration. *)
Record ServeMux := {
  patterns : list (string * Handler)
}.

Definition NewServeMux : ServeMux := {| patterns := [] |}.

(** [mux.Handle(pattern, handler)] *)
Definition Handle (mux : ServeMux) (pattern : string) (handler : Handler) : ServeMux :=
  {| patterns := patterns mux ++ [(pattern, handler)] |}.

(** [http.Server] *)
Record Server := {
  Addr : string;
  Mux : ServeMux
}.

(** What the process asks of the operating system. *)
Inductive Call :=
| ListenAndServeTLS (server : Server) (certFile keyFile : string)
| ListenAndServe (server : Server)
| LogPrint (message : string)
| Exit (code : nat).

(** The listener is outside the program.  [ListenAndServeTLS] returns
    only to report an error; as long as it serves it does not return.
    A [Listener] says, for a server and its certificate and key files,
    which of the two happens. *)
Definition Listener := Server → string → string → option string.

(** A run of the process: the calls it makes, and whether it then goes
    on serving or has exited. *)
Inductive Run :=
| Serving (calls : list Call)
| Exited (calls : list Call) (code : nat).

(** [log.Fatal(err)]: print, then [os.Exit(1)]. *)
Definition log_Fatal (calls : list Call) (err : string) : Run :=
  Exited (calls ++ [LogPrint err; Exit 1]) 1.

Section main.

Context (universalDeserializer : Deserializer) (iter : RangeOrder).

Definition main (listen : Listener) : Run :=
  let certPath := filepath.Join [tlsDir; tlsCertFile] in
  let keyPath := filepath.Join [tlsDir; tlsKeyFile] in
  let mux := NewServeMux in
  let mux := Handle mux "/mutate"
               (admitFuncHandler (applySecurityDefaults universalDeserializer iter)) in
  let server := {| Addr := ":8443"; Mux := mux |} in
  let calls := [ListenAndServeTLS server certPath keyPath] in
  match listen server certPath keyPath with
  | Some err => log_Fatal calls err
  | None => Serving calls
  end.

End main.

End Bootstrap.

(** ** Sample inputs

    A deserializer that knows a few payloads by heart, two range orders,
    pods and requests to run the function on. *)

Module Samples.

Definition table_deserializer
    (table : list (string * corev1.PodOf (gmap string string))) : Deserializer :=
  fun raw =>
    match find (fun entry => String.eqb (fst entry) (string_of_list_byte raw)) table with
    | Some entry => inl (snd entry)
    | None => inr "couldn't get version/kind; json parse error"
    end.

Definition container (name : string) : corev1.Container :=
  {| corev1.Name := name; corev1.Image := "busybox" |}.

Definition pod_of (annotations : list (string * string)) (names : list string)
    : corev1.PodOf (gmap string string) :=
  {| corev1.ObjectName := "demo"; corev1.Namespace := "default";
     corev1.Annotations := list_to_map annotations;
     corev1.Spec := {| corev1.Containers := map container names |} |}.

(** One container ["a"] with its compute-unit annotation. *)
Definition pod_matched :=
  pod_of [("aic.4paradigm.com/app", "true");
          ("aic.4paradigm.com/computeunit/a", "single-core")] ["a"].

(** An annotation for a container ["ghost"] that the pod does not have. *)
Definition pod_ghost :=
  pod_of [("aic.4paradigm.com/app", "true");
          ("aic.4paradigm.com/computeunit/ghost", "single-core")] ["a"].

(** Two containers, one of them without an annotation. *)
Definition pod_asymmetric :=
  pod_of [("aic.4paradigm.com/app", "true");
          ("aic.4paradigm.com/computeunit/a", "single-core")] ["a"; "sidecar"].

(** The activation annotation is there, but not set to ["true"]. *)
Definition pod_inactive :=
  pod_of [("aic.4paradigm.com/app", "yes");
          ("aic.4paradigm.com/computeunit/ghost", "single-core")] ["a"].

Definition pod_plain := pod_of [] ["a"].

Definition deserializer : Deserializer :=
  table_deserializer
    [("matched", pod_matched); ("ghost", pod_ghost);
     ("asymmetric", pod_asymmetric); ("inactive", pod_inactive);
     ("plain", pod_plain)].

Definition forward : RangeOrder :=
  {| range_of := map_to_list; range_of_perm := fun m => Permutation_refl _ |}.

Definition backward : RangeOrder :=
  {| range_of := fun m => reverse (map_to_list m);
     range_of_perm := fun m => reverse_Permutation _ |}.

Definition request (resource : metav1.GroupVersionResource) (uid payload : string)
    : v1beta1.AdmissionRequest :=
  {| v1beta1.UID := uid;
     v1beta1.Kind := {| metav1.KGroup := ""; metav1.KVersion := "v1"; metav1.Kind := "Pod" |};
     v1beta1.Resource := resource;
     v1beta1.SubResource := "";
     v1beta1.Name := "demo";
     v1beta1.Namespace := "default";
     v1beta1.Operation := "CREATE";
     v1beta1.User := {| v1beta1.Username := "alice"; v1beta1.UserUID := "1000";
                        v1beta1.Groups := ["system:authenticated"] |};
     v1beta1.Object := {| v1beta1.Raw := list_byte_of_string payload |};
     v1beta1.OldObject := {| v1beta1.Raw := [] |};
     v1beta1.DryRun := None |}.

Definition deployments : metav1.GroupVersionResource :=
  {| metav1.Group := "apps"; metav1.Version := "v1"; metav1.Resource := "deployments" |}.

Definition empty_store : Store := {| maps := ∅; trace := [] |}.

(** A store in which an earlier request left a map object and a log
    entry behind. *)
Definition used_store : Store :=
  {| maps := {[ 1%positive := {[ "left" := "over" ]} ]};
     trace := [EvDecode []] |}.

(** The certificate cannot be read. *)
Definition no_certificate : Bootstrap.Listener :=
  fun _ certFile _ => Some ("open " ++ certFile ++ ": no such file or directory").

(** The listener starts and goes on serving. *)
Definition healthy : Bootstrap.Listener := fun _ _ _ => None.

End Samples.

(** More pods: the pod of [Samples.pod_matched] with another value under
    its compute-unit annotation and its container listed twice, and an
    activated pod without containers. *)
Module MoreSamples.

Definition pod_revalued : corev1.PodOf (gmap string string) :=
  {| corev1.ObjectName := "other"; corev1.Namespace := "batch";
     corev1.Annotations :=
       list_to_map [("aic.4paradigm.com/app", "true");
                    ("aic.4paradigm.com/computeunit/a", "")];
     corev1.Spec :=
       {| corev1.Containers :=
            [ {| corev1.Name := "a"; corev1.Image := "nginx" |};
              {| corev1.Name := "a"; corev1.Image := "busybox" |} ] |} |}.

Definition pod_bare : corev1.PodOf (gmap string string) :=
  Samples.pod_of [("aic.4paradigm.com/app", "true"); ("team", "billing")] [].

Definition deserializer : Deserializer :=
  Samples.table_deserializer
    [("matched", Samples.pod_matched); ("revalued", pod_revalued); ("bare", pod_bare)].

(** A store whose object 1 is an empty map. *)
Definition fresh_map_store : Store :=
  {| maps := {[ 1%positive := ∅ ]}; trace := [] |}.

(** A store whose object 1 is a working map with two entries. *)
Definition working_store : Store :=
  {| maps := {[ 1%positive := {[ "a" := "single-core"; "ghost" := "dual-core" ]} ]};
     trace := [] |}.

End MoreSamples.

(** ** Strings *)

Lemma prefix_app (p n : string) : String.prefix p (p ++ n) = true.
Proof.
  induction p as [|c p IH]; simpl.
  - by destruct n.
  - destruct (ascii_dec c c); [apply IH | done].
Qed.

Lemma drop_app (p n : string) : gostrings.drop (String.length p) (p ++ n) = n.
Proof. induction p as [|c p IH]; simpl; [done | apply IH]. Qed.

Lemma prefix_split (p s : string) :
  String.prefix p s = true → s = p ++ gostrings.drop (String.length p) s.
Proof.
  revert s. induction p as [|c p IH]; intros s H; [done |].
  destruct s as [|d s]; simpl in *; [done |].
  destruct (ascii_dec c d) as [-> | ?]; [| done].
  change (String d s = String d (p ++ gostrings.drop (String.length p) s)).
  f_equal. by apply IH.
Qed.

Lemma HasPrefix_app (p n : string) : gostrings.HasPrefix (p ++ n) p = true.
Proof. apply prefix_app. Qed.

Lemma TrimPrefix_app (p n : string) : gostrings.TrimPrefix (p ++ n) p = n.
Proof. unfold gostrings.TrimPrefix. rewrite HasPrefix_app. apply drop_app. Qed.

Lemma HasPrefix_split (s p : string) :
  gostrings.HasPrefix s p = true → s = p ++ gostrings.TrimPrefix s p.
Proof.
  intros H. unfold gostrings.TrimPrefix. rewrite H. by apply prefix_split.
Qed.

Lemma gvr_eqb_eq (a b : metav1.GroupVersionResource) :
  metav1.gvr_eqb a b = true ↔ a = b.
Proof.
  unfold metav1.gvr_eqb. rewrite !andb_true_iff, !String.eqb_eq.
  destruct a, b; simpl. split.
  - intros [[-> ->] ->]. done.
  - intros [= -> -> ->]. done.
Qed.

(** ** The store *)

Lemma set_map_set_map l m m' σ : set_map l m (set_map l m' σ) = set_map l m σ.
Proof. unfold set_map; simpl. by rewrite insert_insert_eq. Qed.

Lemma set_map_same l m σ : maps σ !! l = Some m → set_map l m σ = σ.
Proof. intros H. destruct σ; unfold set_map; simpl in *. by rewrite insert_id. Qed.

Lemma maps_set_map l m σ : maps (set_map l m σ) !! l = Some m.
Proof. apply lookup_insert_eq. Qed.

(** ** The loops, run *)

Lemma range_annotations_run l entries σ m :
  maps σ !! l = Some m →
  range_annotations l entries σ = Ok tt (set_map l (computeunits_of entries m) σ).
Proof.
  revert σ m. induction entries as [|[k v] rest IH]; intros σ m Hl; simpl.
  - unfold ret. by rewrite set_map_same.
  - unfold bind, computeunits_of; simpl.
    destruct (gostrings.HasPrefix k _).
    + unfold map_assign. rewrite Hl.
      rewrite (IH _ _ (maps_set_map _ _ _)). by rewrite set_map_set_map.
    + unfold ret. by rewrite (IH _ _ Hl).
Qed.

Lemma range_containers_run l containers σ m computeunitList :
  maps σ !! l = Some m →
  range_containers l containers computeunitList σ
  = Ok (snd (consume containers m computeunitList))
       (set_map l (fst (consume containers m computeunitList)) σ).
Proof.
  revert σ m computeunitList.
  induction containers as [|c rest IH]; intros σ m lst Hl; simpl.
  - unfold ret. by rewrite set_map_same.
  - unfold bind, map_index2, deref. rewrite Hl; simpl.
    destruct (m !! corev1.Name c) as [cu|] eqn:Hc.
    + unfold map_delete. rewrite Hl.
      rewrite (IH _ _ _ (maps_set_map _ _ _)). by rewrite set_map_set_map.
    + by rewrite (IH _ _ _ Hl).
Qed.

(** ** The working map, entry by entry *)


(** After the first loop the working map holds, under [n], what the
    visited entries hold under the annotation key for [n], whatever the
    order of the visit, as long as no key is visited twice. *)
Lemma computeunits_of_lookup entries (m : gmap string string) n :
  NoDup entries.*1 →
  computeunits_of entries m !! n
  = match (list_to_map entries : gmap string string) !! (computeunitPrefix ++ n) with
    | Some v => Some v
    | None => m !! n
    end.
Proof.
  revert m. induction entries as [|[k v] rest IH]; intros m Hnd.
  - simpl. by rewrite lookup_empty.
  - apply NoDup_cons in Hnd as [Hk Hnd].
    change (computeunits_of ((k, v) :: rest) m)
      with (computeunits_of rest
              (if gostrings.HasPrefix k computeunitPrefix
               then <[gostrings.TrimPrefix k computeunitPrefix := v]> m else m)).
    rewrite (IH _ Hnd). simpl list_to_map.
    destruct (decide (k = computeunitPrefix ++ n)) as [-> | Hne].
    + rewrite lookup_insert_eq.
      rewrite (not_elem_of_list_to_map_1 _ _ Hk).
      rewrite HasPrefix_app, TrimPrefix_app. apply lookup_insert_eq.
    + rewrite lookup_insert_ne by done.
      destruct (list_to_map rest !! _); [done |].
      destruct (gostrings.HasPrefix k computeunitPrefix) eqn:Hp; [| done].
      apply lookup_insert_ne. intros <-. apply Hne. by apply HasPrefix_split.
Qed.

(** The same for the entries of a map, in any range order. *)
Lemma NoDup_range (iter : RangeOrder) (annotations : gmap string string) :
  NoDup (iter annotations).*1.
Proof.
  rewrite (range_of_perm iter annotations). apply NoDup_fst_map_to_list.
Qed.

Lemma list_to_map_range (iter : RangeOrder) (annotations : gmap string string) :
  list_to_map (iter annotations) = annotations.
Proof.
  rewrite (list_to_map_proper _ (map_to_list annotations)).
  - apply list_to_map_to_list.
  - apply NoDup_range.
  - apply range_of_perm.
Qed.

Lemma computeunits_of_range (iter : RangeOrder) (annotations : gmap string string) n :
  computeunits_of (iter annotations) ∅ !! n = annotations !! (computeunitPrefix ++ n).
Proof.
  rewrite computeunits_of_lookup by apply NoDup_range.
  rewrite list_to_map_range, lookup_empty. by destruct (annotations !! _).
Qed.

(** Hence the range order does not show in the working map. *)
Lemma computeunits_of_order (iter1 iter2 : RangeOrder) (annotations : gmap string string) :
  computeunits_of (iter1 annotations) ∅ = computeunits_of (iter2 annotations) ∅.
Proof. apply map_eq. intros n. by rewrite !computeunits_of_range. Qed.

(** The second loop removes the entries of the containers' names and
    no other. *)
Lemma consume_lookup containers (m : gmap string string) computeunitList n :
  fst (consume containers m computeunitList) !! n
  = if decide (n ∈ corev1.Name <$> containers) then None else m !! n.
Proof.
  revert m computeunitList.
  induction containers as [|c rest IH]; intros m lst; cbn [consume fst].
  - rewrite decide_False; [done | apply not_elem_of_nil].
  - assert (Hcons : n ∈ corev1.Name c :: (corev1.Name <$> rest)
                    ↔ n = corev1.Name c ∨ n ∈ corev1.Name <$> rest)
      by apply elem_of_cons.
    rewrite fmap_cons.
    destruct (m !! corev1.Name c) as [cu|] eqn:Hc; rewrite IH;
      destruct (decide (n = corev1.Name c)) as [-> | Hne];
      repeat case_decide; try done; try tauto.
    + apply lookup_delete_eq.
    + by apply lookup_delete_ne.
Qed.

Lemma leftover_lookup iter p n :
  leftover iter p !! n
  = if decide (n ∈ corev1.Name <$> corev1.Containers (corev1.Spec p)) then None
    else corev1.Annotations p !! (computeunitPrefix ++ n).
Proof. unfold leftover. by rewrite consume_lookup, computeunits_of_range. Qed.

Lemma leftover_order iter1 iter2 p : leftover iter1 p = leftover iter2 p.
Proof. apply map_eq. intros n. by rewrite !leftover_lookup. Qed.

(** ** The function, run branch by branch *)

Section runs.

Context (universalDeserializer : Deserializer) (iter : RangeOrder).

Local Abbreviation run := (applySecurityDefaults universalDeserializer iter).

Lemma Decode_pod raw σ p :
  universalDeserializer raw = inl p →
  Decode universalDeserializer raw σ
  = Ok (inl (in_memory (fresh (dom (maps σ))) p)) (decoded raw p σ).
Proof. intros Hd. unfold Decode. by rewrite Hd. Qed.

Lemma maps_decoded raw p σ :
  maps (decoded raw p σ) !! fresh (dom (maps σ)) = Some (corev1.Annotations p).
Proof. apply lookup_insert_eq. Qed.

Lemma run_other_resource req σ :
  metav1.gvr_eqb (v1beta1.Resource req) podResource = false →
  run req σ = Ok ([], None) (record (EvLogPrintf "expect resource to be %s" podResource) σ).
Proof. intros H. unfold applySecurityDefaults. by rewrite H. Qed.

Lemma run_undecodable req σ err :
  metav1.gvr_eqb (v1beta1.Resource req) podResource = true →
  universalDeserializer (v1beta1.Raw (v1beta1.Object req)) = inr err →
  run req σ = Ok ([], Some (Errorf_deserialize err))
                 (record (EvDecode (v1beta1.Raw (v1beta1.Object req))) σ).
Proof.
  intros H Hd. unfold applySecurityDefaults. rewrite H; simpl.
  unfold bind, Decode. by rewrite Hd.
Qed.

Lemma index_app raw p σ :
  map_index (fresh (dom (maps σ))) appKey (decoded raw p σ)
  = Ok (default "" (corev1.Annotations p !! appKey)) (decoded raw p σ).
Proof.
  unfold map_index, bind, map_index2, deref. rewrite maps_decoded. simpl default.
  by destruct (corev1.Annotations p !! appKey).
Qed.

Lemma run_inactive req σ p :
  metav1.gvr_eqb (v1beta1.Resource req) podResource = true →
  universalDeserializer (v1beta1.Raw (v1beta1.Object req)) = inl p →
  activated p = false →
  run req σ = Ok ([], None) (decoded (v1beta1.Raw (v1beta1.Object req)) p σ).
Proof.
  intros H Hd Ha. unfold applySecurityDefaults. rewrite H; simpl.
  unfold bind at 1. rewrite (Decode_pod _ _ _ Hd).
  cbn [in_memory corev1.Annotations].
  unfold bind. rewrite index_app.
  unfold activated in Ha. by rewrite Ha.
Qed.

Lemma run_active req σ p :
  metav1.gvr_eqb (v1beta1.Resource req) podResource = true →
  universalDeserializer (v1beta1.Raw (v1beta1.Object req)) = inl p →
  activated p = true →
  run req σ
  = Ok (if negb (Nat.eqb (size (leftover iter p)) 0)
        then ([], Some "unexpected computeunit") else ([], None))
       (evaluated iter (v1beta1.Raw (v1beta1.Object req)) p σ).
Proof.
  intros H Hd Ha. unfold applySecurityDefaults. rewrite H; simpl.
  unfold bind at 1. rewrite (Decode_pod _ _ _ Hd).
  cbn [in_memory corev1.Annotations corev1.Spec].
  unfold evaluated.
  set (σ1 := decoded (v1beta1.Raw (v1beta1.Object req)) p σ).
  set (la := fresh (dom (maps σ))).
  assert (Hla : maps σ1 !! la = Some (corev1.Annotations p)) by apply maps_decoded.
  unfold bind at 1. subst σ1 la. rewrite index_app.
  set (σ1 := decoded (v1beta1.Raw (v1beta1.Object req)) p σ) in *.
  set (la := fresh (dom (maps σ))) in *.
  unfold activated in Ha. rewrite Ha. cbn [negb].
  unfold bind at 1. unfold make_map.
  set (lc := fresh (dom (maps σ1))).
  assert (Hne : lc ≠ la).
  { intros Heq. apply (is_fresh (dom (maps σ1))). fold lc. rewrite Heq.
    apply elem_of_dom. by rewrite Hla. }
  unfold bind at 1. unfold map_range, deref.
  replace (maps (set_map lc ∅ σ1) !! la) with (Some (corev1.Annotations p))
    by (unfold set_map; simpl; by rewrite lookup_insert_ne).
  simpl default.
  unfold bind at 1.
  rewrite (range_annotations_run _ _ _ _ (maps_set_map _ _ _)).
  rewrite set_map_set_map.
  unfold bind at 1.
  rewrite (range_containers_run _ _ _ _ _ (maps_set_map _ _ _)).
  rewrite set_map_set_map.
  unfold bind, map_len, deref, ret. rewrite maps_set_map. simpl default.
  fold (leftover iter p). by destruct (negb _).
Qed.

(** Every run returns, and what it returns is the [verdict]. *)
Lemma run_verdict req σ :
  ∃ σ', run req σ = Ok (verdict universalDeserializer iter req) σ'.
Proof.
  unfold verdict.
  destruct (metav1.gvr_eqb (v1beta1.Resource req) podResource) eqn:Hres; simpl.
  - destruct (universalDeserializer (v1beta1.Raw (v1beta1.Object req)))
      as [p | err] eqn:Hd.
    + destruct (activated p) eqn:Ha; simpl.
      * eexists. by apply run_active.
      * eexists. by apply run_inactive.
    + eexists. by apply run_undecodable.
  - eexists. by apply run_other_resource.
Qed.

End runs.

Lemma activated_true p :
  activated p = true ↔ corev1.Annotations p !! appKey = Some "true".
Proof.
  unfold activated. rewrite String.eqb_eq.
  destruct (corev1.Annotations p !! appKey) as [v|]; simpl; split;
    congruence.
Qed.

Lemma activated_false p :
  activated p = false ↔ corev1.Annotations p !! appKey ≠ Some "true".
Proof.
  rewrite <- activated_true. by destruct (activated p).
Qed.

(** The verdict does not depend on the range order. *)
Lemma verdict_order universalDeserializer (iter1 iter2 : RangeOrder) req :
  verdict universalDeserializer iter1 req = verdict universalDeserializer iter2 req.
Proof.
  unfold verdict.
  destruct (universalDeserializer _) as [p|]; [| done].
  by rewrite (leftover_order iter1 iter2).
Qed.

(** It reads two fields of the request and no other. *)
Lemma verdict_fields universalDeserializer iter req1 req2 :
  v1beta1.Resource req1 = v1beta1.Resource req2 →
  v1beta1.Raw (v1beta1.Object req1) = v1beta1.Raw (v1beta1.Object req2) →
  verdict universalDeserializer iter req1 = verdict universalDeserializer iter req2.
Proof. intros Hres Hraw. unfold verdict. by rewrite Hres, Hraw. Qed.

(** The verdict carries no patch. *)
Lemma verdict_patches universalDeserializer iter req :
  fst (verdict universalDeserializer iter req) = [].
Proof.
  unfold verdict.
  destruct (negb (metav1.gvr_eqb _ _)); [done |].
  destruct (universalDeserializer _) as [p|]; [| done].
  destruct (negb (activated p)); [done |].
  by destruct (negb _).
Qed.

Lemma leftover_empty iter p :
  (∀ name v, corev1.Annotations p !! (computeunitPrefix ++ name) = Some v →
             name ∈ corev1.Name <$> corev1.Containers (corev1.Spec p)) →
  leftover iter p = ∅.
Proof.
  intros Hall. apply map_empty. intros n. rewrite leftover_lookup.
  case_decide as Hin; [done |].
  destruct (corev1.Annotations p !! (computeunitPrefix ++ n)) as [v|] eqn:Hn; [| done].
  destruct Hin. by eapply Hall.
Qed.

Lemma leftover_unmatched iter p name v :
  corev1.Annotations p !! (computeunitPrefix ++ name) = Some v →
  name ∉ corev1.Name <$> corev1.Containers (corev1.Spec p) →
  size (leftover iter p) ≠ 0.
Proof.
  intros Hn Hnot Hsize. apply map_size_empty_inv in Hsize.
  assert (Hl : leftover iter p !! name = Some v)
    by (rewrite leftover_lookup; by rewrite decide_False).
  rewrite Hsize, lookup_empty in Hl. done.
Qed.

(** ** The decision function: what the specification says of it *)

Section claims.

Context (universalDeserializer : Deserializer).

Local Abbreviation run := (applySecurityDefaults universalDeserializer).

(** C1.  A pod that is activated and carries a compute-unit annotation
    for a name no container of it has is refused: the function returns
    no patch and the error ["unexpected computeunit"].  The loop over
    the containers consumes only the entries of containers that exist,
    so the entry for the missing one is left in the working map and the
    final length check sees it.  The message is that fixed text: it
    speaks of an unexpected compute unit and does not spell out its
    name. *)
Theorem unmatched_computeunit_is_refused iter req σ p name v :
  v1beta1.Resource req = podResource →
  universalDeserializer (v1beta1.Raw (v1beta1.Object req)) = inl p →
  corev1.Annotations p !! "aic.4paradigm.com/app" = Some "true" →
  corev1.Annotations p !! ("aic.4paradigm.com/computeunit/" ++ name) = Some v →
  name ∉ corev1.Name <$> corev1.Containers (corev1.Spec p) →
  outcome (run iter req σ) = Some ([], Some "unexpected computeunit").
Proof.
  intros Hres Hd Happ Hname Hnot.
  apply gvr_eqb_eq in Hres. apply activated_true in Happ.
  rewrite (run_active _ _ _ _ _ Hres Hd Happ). simpl. f_equal.
  pose proof (leftover_unmatched iter _ _ _ Hname Hnot) as Hsize.
  apply Nat.eqb_neq in Hsize. by rewrite Hsize.
Qed.

(** C2.  A request for any resource other than [v1/pods] is let
    through: the function returns no patch and no error, whatever the
    payload and whatever the deserializer would make of it.  All it
    does is log the mismatch; the payload is not decoded and no map
    object is created. *)
Theorem other_resource_is_let_through iter req σ :
  v1beta1.Resource req ≠ podResource →
  run iter req σ
  = Ok ([], None) (record (EvLogPrintf "expect resource to be %s" podResource) σ).
Proof.
  intros Hres. apply run_other_resource.
  destruct (metav1.gvr_eqb _ _) eqn:Heq; [| done].
  by apply gvr_eqb_eq in Heq.
Qed.

(** C3.  A pod without the activation annotation, or with a value
    other than exactly ["true"] under it, is approved as it is: no
    patch, no error. *)
Theorem inactive_pod_is_approved iter req σ p :
  v1beta1.Resource req = podResource →
  universalDeserializer (v1beta1.Raw (v1beta1.Object req)) = inl p →
  corev1.Annotations p !! "aic.4paradigm.com/app" ≠ Some "true" →
  outcome (run iter req σ) = Some ([], None).
Proof.
  intros Hres Hd Happ.
  apply gvr_eqb_eq in Hres. apply activated_false in Happ.
  by rewrite (run_inactive _ _ _ _ _ Hres Hd Happ).
Qed.

(** C4.  An activated pod each of whose compute-unit annotations names
    one of its containers is accepted: the function returns without an
    error.  Nothing is asked of the containers, which may well have no
    annotation. *)
Theorem matched_computeunits_are_accepted iter req σ p :
  v1beta1.Resource req = podResource →
  universalDeserializer (v1beta1.Raw (v1beta1.Object req)) = inl p →
  corev1.Annotations p !! "aic.4paradigm.com/app" = Some "true" →
  (∀ name v,
     corev1.Annotations p !! ("aic.4paradigm.com/computeunit/" ++ name) = Some v →
     name ∈ corev1.Name <$> corev1.Containers (corev1.Spec p)) →
  ∃ patches, outcome (run iter req σ) = Some (patches, None).
Proof.
  intros Hres Hd Happ Hall.
  apply gvr_eqb_eq in Hres. apply activated_true in Happ.
  rewrite (run_active _ _ _ _ _ Hres Hd Happ).
  rewrite (leftover_empty iter p Hall), map_size_empty. simpl. by eexists.
Qed.

(** C5.  The function produces no patch operation: on every request it
    returns, and the patch list it returns is empty, in particular
    whenever it returns without an error. *)
Theorem no_patch_is_produced iter req σ :
  ∃ err, outcome (run iter req σ) = Some ([], err).
Proof.
  destruct (run_verdict universalDeserializer iter req σ) as [σ' ->].
  pose proof (verdict_patches universalDeserializer iter req) as Hp.
  destruct (verdict _ _ _) as [patches err]; simpl in *; subst. by eexists.
Qed.

(** C6.  Two invocations on the same request, one after the other,
    return the same patch list and the same error, also when the two
    runs visit the annotations in different orders. *)
Theorem same_request_same_result (iter1 iter2 : RangeOrder) req σ :
  ∃ r σ' σ'', run iter1 req σ = Ok r σ' ∧ run iter2 req σ' = Ok r σ''.
Proof.
  destruct (run_verdict universalDeserializer iter1 req σ) as [σ' H1].
  destruct (run_verdict universalDeserializer iter2 req σ') as [σ'' H2].
  rewrite (verdict_order _ iter2 iter1) in H2. eauto.
Qed.

(** C7.  The function does not write to the pod it reviews.  Once the
    payload is decoded, every map object of the store, the pod's
    annotation map among them, holds at the end of the run what it held
    then; the one object the run may add, the working map, sits at a
    location that was free. *)
Theorem reviewed_pod_is_not_written iter req σ pod σ1 :
  v1beta1.Resource req = podResource →
  Decode universalDeserializer (v1beta1.Raw (v1beta1.Object req)) σ = Ok (inl pod) σ1 →
  ∃ r σ', run iter req σ = Ok r σ'
    ∧ is_Some (maps σ1 !! corev1.Annotations pod)
    ∧ (∀ l, l ∈ dom (maps σ1) → maps σ' !! l = maps σ1 !! l)
    ∧ (∀ l, l ∈ dom (maps σ') → l ∉ dom (maps σ1) → l = fresh (dom (maps σ1))).
Proof.
  intros Hres Hdec. apply gvr_eqb_eq in Hres.
  destruct (universalDeserializer (v1beta1.Raw (v1beta1.Object req)))
    as [p | err] eqn:Hd.
  - rewrite (Decode_pod _ _ _ _ Hd) in Hdec. injection Hdec as <- <-.
    cbn [in_memory corev1.Annotations].
    assert (Hsome : is_Some (maps (decoded (v1beta1.Raw (v1beta1.Object req)) p σ)
                              !! fresh (dom (maps σ))))
      by (rewrite maps_decoded; by eexists).
    destruct (activated p) eqn:Ha.
    + rewrite (run_active _ _ _ _ _ Hres Hd Ha). do 2 eexists.
      repeat split; [done | |].
      * intros l Hl. unfold evaluated, set_map; simpl maps.
        apply lookup_insert_ne. intros <-. by apply is_fresh in Hl.
      * intros l Hl Hnew. unfold evaluated, set_map in Hl; simpl maps in Hl.
        rewrite dom_insert_L in Hl. apply elem_of_union in Hl as [Hl | Hl]; [| done].
        by apply elem_of_singleton in Hl.
    + rewrite (run_inactive _ _ _ _ _ Hres Hd Ha). do 2 eexists.
      repeat split; done.
  - unfold Decode in Hdec. rewrite Hd in Hdec. done.
Qed.

(** C8.  The result is a function of the resource descriptor and the
    payload of the request: two requests that agree on these two return
    the same patch list and the same error, whatever their other
    fields, whatever the store each run starts from and whatever order
    each visits the annotations in. *)
Theorem result_reads_resource_and_payload iter1 iter2 req1 req2 σ1 σ2 :
  v1beta1.Resource req1 = v1beta1.Resource req2 →
  v1beta1.Raw (v1beta1.Object req1) = v1beta1.Raw (v1beta1.Object req2) →
  ∃ r, outcome (run iter1 req1 σ1) = Some r ∧ outcome (run iter2 req2 σ2) = Some r.
Proof.
  intros Hres Hraw.
  destruct (run_verdict universalDeserializer iter1 req1 σ1) as [σ1' ->].
  destruct (run_verdict universalDeserializer iter2 req2 σ2) as [σ2' ->].
  rewrite (verdict_order _ iter2 iter1).
  rewrite (verdict_fields _ iter1 req2 req1) by done.
  by eexists.
Qed.

(** C10.  A request for [v1/pods] whose payload the deserializer
    rejects ends in an error: the decode is attempted, and the function
    returns no patch and an error whose message is
    ["could not deserialize pod object: "] followed by the
    deserializer's. *)
Theorem undecodable_payload_is_an_error iter req σ err :
  v1beta1.Resource req = podResource →
  universalDeserializer (v1beta1.Raw (v1beta1.Object req)) = inr err →
  run iter req σ
  = Ok ([], Some ("could not deserialize pod object: " ++ err))
       (record (EvDecode (v1beta1.Raw (v1beta1.Object req))) σ).
Proof.
  intros Hres Hd. apply gvr_eqb_eq in Hres. by apply run_undecodable.
Qed.

End claims.

(** ** The bootstrap: what the specification says of it *)

Lemma certPath_eq :
  filepath.Join [Bootstrap.tlsDir; Bootstrap.tlsCertFile] = "/run/secrets/tls/tls.crt".
Proof. reflexivity. Qed.

Lemma keyPath_eq :
  filepath.Join [Bootstrap.tlsDir; Bootstrap.tlsKeyFile] = "/run/secrets/tls/tls.key".
Proof. reflexivity. Qed.

(** C9.  [main] binds the decision function to the one path [/mutate],
    and starts one listener: a TLS listener on [:8443] with the
    certificate [/run/secrets/tls/tls.crt] and the key
    [/run/secrets/tls/tls.key].  If that listener returns an error, the
    process prints it and exits with status 1; it makes no other
    attempt to listen. *)
Theorem main_serves_mutate_over_tls universalDeserializer iter
    (listen : Bootstrap.Listener) :
  let server :=
    {| Bootstrap.Addr := ":8443";
       Bootstrap.Mux :=
         {| Bootstrap.patterns :=
              [("/mutate",
                Bootstrap.admitFuncHandler
                  (applySecurityDefaults universalDeserializer iter))] |} |} in
  let start :=
    Bootstrap.ListenAndServeTLS server
      "/run/secrets/tls/tls.crt" "/run/secrets/tls/tls.key" in
  Bootstrap.main universalDeserializer iter listen
  = match listen server "/run/secrets/tls/tls.crt" "/run/secrets/tls/tls.key" with
    | Some err => Bootstrap.Exited [start; Bootstrap.LogPrint err; Bootstrap.Exit 1] 1
    | None => Bootstrap.Serving [start]
    end.
Proof.
  intros server start. unfold Bootstrap.main.
  rewrite certPath_eq, keyPath_eq.
  fold server. fold start.
  destruct (listen _ _ _); reflexivity.
Qed.

(** ** The theorems at the sample inputs *)

Lemma unmatched_computeunit_is_refused_witness :
  outcome (applySecurityDefaults Samples.deserializer Samples.backward
             (Samples.request podResource "uid-1" "ghost") Samples.used_store)
  = Some ([], Some "unexpected computeunit").
Proof.
  apply (unmatched_computeunit_is_refused Samples.deserializer Samples.backward
           (Samples.request podResource "uid-1" "ghost") Samples.used_store
           Samples.pod_ghost "ghost" "single-core").
  - reflexivity.
  - reflexivity.
  - vm_compute; reflexivity.
  - vm_compute; reflexivity.
  - simpl. intros Hin. apply list_elem_of_singleton in Hin. discriminate Hin.
Defined.

Lemma other_resource_is_let_through_witness :
  applySecurityDefaults Samples.deserializer Samples.forward
    (Samples.request Samples.deployments "uid-2" "not a pod at all") Samples.empty_store
  = Ok ([], None)
       {| maps := ∅; trace := [EvLogPrintf "expect resource to be %s" podResource] |}.
Proof.
  apply (other_resource_is_let_through Samples.deserializer Samples.forward
           (Samples.request Samples.deployments "uid-2" "not a pod at all")
           Samples.empty_store).
  discriminate.
Defined.

Lemma inactive_pod_is_approved_witness :
  outcome (applySecurityDefaults Samples.deserializer Samples.forward
             (Samples.request podResource "uid-3" "inactive") Samples.empty_store)
  = Some ([], None).
Proof.
  apply (inactive_pod_is_approved Samples.deserializer Samples.forward
           (Samples.request podResource "uid-3" "inactive") Samples.empty_store
           Samples.pod_inactive).
  - reflexivity.
  - reflexivity.
  - vm_compute. discriminate.
Defined.

Lemma matched_computeunits_are_accepted_witness :
  ∃ patches,
    outcome (applySecurityDefaults Samples.deserializer Samples.forward
               (Samples.request podResource "uid-4" "asymmetric") Samples.empty_store)
    = Some (patches, None).
Proof.
  apply (matched_computeunits_are_accepted Samples.deserializer Samples.forward
           (Samples.request podResource "uid-4" "asymmetric") Samples.empty_store
           Samples.pod_asymmetric).
  - reflexivity.
  - reflexivity.
  - vm_compute; reflexivity.
  - intros name v Hname.
    assert (Hkey : "aic.4paradigm.com/computeunit/" ++ name
                   ∈ dom (corev1.Annotations Samples.pod_asymmetric))
      by (apply elem_of_dom; by eexists).
    unfold Samples.pod_asymmetric, Samples.pod_of in Hkey; simpl in Hkey.
    rewrite !dom_insert_L, dom_empty_L in Hkey.
    apply elem_of_union in Hkey as [Hkey | Hkey].
    + apply elem_of_singleton in Hkey. discriminate Hkey.
    + apply elem_of_union in Hkey as [Hkey | Hkey]; [| by apply elem_of_empty in Hkey].
      apply elem_of_singleton in Hkey. cbv [String.append] in Hkey.
      injection Hkey as ->. by left.
Defined.

Lemma reviewed_pod_is_not_written_witness :
  ∃ r σ',
    applySecurityDefaults Samples.deserializer Samples.forward
      (Samples.request podResource "uid-7" "matched") Samples.used_store = Ok r σ'
    ∧ is_Some (maps (decoded (list_byte_of_string "matched") Samples.pod_matched
                       Samples.used_store) !! 2%positive)
    ∧ (∀ l, l ∈ dom (maps (decoded (list_byte_of_string "matched") Samples.pod_matched
                             Samples.used_store)) →
            maps σ' !! l
            = maps (decoded (list_byte_of_string "matched") Samples.pod_matched
                      Samples.used_store) !! l)
    ∧ (∀ l, l ∈ dom (maps σ') →
            l ∉ dom (maps (decoded (list_byte_of_string "matched") Samples.pod_matched
                             Samples.used_store)) →
            l = fresh (dom (maps (decoded (list_byte_of_string "matched")
                                    Samples.pod_matched Samples.used_store)))).
Proof.
  apply (reviewed_pod_is_not_written Samples.deserializer Samples.forward
           (Samples.request podResource "uid-7" "matched") Samples.used_store
           (in_memory 2%positive Samples.pod_matched)
           (decoded (list_byte_of_string "matched") Samples.pod_matched
              Samples.used_store)).
  - reflexivity.
  - reflexivity.
Defined.

Lemma result_reads_resource_and_payload_witness :
  ∃ r,
    outcome (applySecurityDefaults Samples.deserializer Samples.forward
               (Samples.request podResource "uid-8" "ghost") Samples.empty_store)
    = Some r
    ∧ outcome (applySecurityDefaults Samples.deserializer Samples.backward
                 {| v1beta1.UID := "uid-9";
                    v1beta1.Kind := {| metav1.KGroup := ""; metav1.KVersion := "v1";
                                       metav1.Kind := "Pod" |};
                    v1beta1.Resource := podResource;
                    v1beta1.SubResource := "status";
                    v1beta1.Name := "other";
                    v1beta1.Namespace := "kube-system";
                    v1beta1.Operation := "UPDATE";
                    v1beta1.User := {| v1beta1.Username := "bob"; v1beta1.UserUID := "0";
                                       v1beta1.Groups := [] |};
                    v1beta1.Object := {| v1beta1.Raw := list_byte_of_string "ghost" |};
                    v1beta1.OldObject := {| v1beta1.Raw := list_byte_of_string "matched" |};
                    v1beta1.DryRun := Some true |}
                 Samples.used_store)
      = Some r.
Proof.
  apply (result_reads_resource_and_payload Samples.deserializer
           Samples.forward Samples.backward); reflexivity.
Defined.

Lemma undecodable_payload_is_an_error_witness :
  applySecurityDefaults Samples.deserializer Samples.forward
    (Samples.request podResource "uid-10" "{") Samples.empty_store
  = Ok ([], Some "could not deserialize pod object: couldn't get version/kind; json parse error")
       {| maps := ∅; trace := [EvDecode (list_byte_of_string "{")] |}.
Proof.
  apply (undecodable_payload_is_an_error Samples.deserializer Samples.forward
           (Samples.request podResource "uid-10" "{") Samples.empty_store
           "couldn't get version/kind; json parse error").
  - reflexivity.
  - reflexivity.
Defined.

(** The pod with an annotation for a container it does not have. *)
Example ghost_pod_is_refused :
  outcome (applySecurityDefaults Samples.deserializer Samples.forward
             (Samples.request podResource "uid-1" "ghost") Samples.empty_store)
  = Some ([], Some "unexpected computeunit").
Proof. vm_compute. reflexivity. Qed.

(** An activated pod whose one container has its annotation. *)
Example matched_pod_is_accepted :
  outcome (applySecurityDefaults Samples.deserializer Samples.backward
             (Samples.request podResource "uid-4" "matched") Samples.empty_store)
  = Some ([], None).
Proof. vm_compute. reflexivity. Qed.

(** With the activation annotation set to ["yes"], an unmatched
    compute-unit annotation goes unnoticed. *)
Example inactive_pod_is_not_validated :
  outcome (applySecurityDefaults Samples.deserializer Samples.forward
             (Samples.request podResource "uid-3" "inactive") Samples.empty_store)
  = Some ([], None).
Proof. vm_compute. reflexivity. Qed.

(** Without the certificate the process exits with status 1. *)
Example main_without_certificate :
  ∃ calls, Bootstrap.main Samples.deserializer Samples.forward Samples.no_certificate
           = Bootstrap.Exited calls 1
           ∧ last calls = Some (Bootstrap.Exit 1).
Proof.
  unfold Bootstrap.main. rewrite certPath_eq, keyPath_eq.
  simpl. eexists. split; reflexivity.
Qed.

(** A pod without any annotation is approved as it is. *)
Example plain_pod_is_approved :
  outcome (applySecurityDefaults Samples.deserializer Samples.forward
             (Samples.request podResource "uid-5" "plain") Samples.used_store)
  = Some ([], None).
Proof. vm_compute. reflexivity. Qed.

(** With a listener that starts, the process goes on serving after
    its one call. *)
Example main_with_certificate :
  ∃ server,
    Bootstrap.main Samples.deserializer Samples.forward Samples.healthy
    = Bootstrap.Serving
        [Bootstrap.ListenAndServeTLS server
           "/run/secrets/tls/tls.crt" "/run/secrets/tls/tls.key"]
    ∧ Bootstrap.Addr server = ":8443"
    ∧ fst <$> Bootstrap.patterns (Bootstrap.Mux server) = ["/mutate"].
Proof.
  unfold Bootstrap.main. rewrite certPath_eq, keyPath_eq.
  simpl. eexists. repeat split.
Qed.

(** [filepath.Clean] on paths with doubled separators, dots and a
    trailing separator. *)
Example Clean_inner : filepath.Clean "/a//b/./c/../d/" = "/a/b/d".
Proof. reflexivity. Qed.

Example Clean_above_root : filepath.Clean "/../a" = "/a".
Proof. reflexivity. Qed.

Example Clean_relative : filepath.Clean "../../a/.." = "../..".
Proof. reflexivity. Qed.

Example Clean_empty : filepath.Clean "" = ".".
Proof. reflexivity. Qed.

Example Join_skips_empty : filepath.Join [""; "a"; ""; "b"] = "a/b".
Proof. reflexivity. Qed.

(** ** Further properties of the two loops *)

(** With container names that are pairwise different, the second loop
    appends to [computeunitList] the entry of each container that has
    one, in the order of the containers. *)
Lemma consume_list containers (m : gmap string string) computeunitList :
  NoDup (corev1.Name <$> containers) →
  snd (consume containers m computeunitList)
  = (computeunitList ++ omap (fun c => m !! corev1.Name c) containers)%list.
Proof.
  revert m computeunitList.
  induction containers as [|c rest IH]; intros m lst Hnd; cbn [consume snd omap list_omap].
  - by rewrite app_nil_r.
  - rewrite fmap_cons in Hnd. apply NoDup_cons in Hnd as [Hc Hnd].
    destruct (m !! corev1.Name c) as [cu|] eqn:Hm.
    + rewrite (IH _ _ Hnd), <- app_assoc. simpl. do 2 f_equal.
      clear IH Hnd. induction rest as [|d rest IH]; [done |].
      rewrite fmap_cons in Hc. apply not_elem_of_cons in Hc as [Hne Hc].
      cbn [omap list_omap]. rewrite lookup_delete_ne by done.
      by rewrite (IH Hc).
    + by rewrite (IH _ _ Hnd).
Qed.

(** X1.  The first loop fills the working map from the annotations:
    started on an empty working map, it leaves under each name exactly
    what the annotation map holds under the compute-unit key of that
    name, and nothing for the annotations with other keys, in whatever
    order the annotations are visited. *)
Theorem first_loop_collects_computeunits (iter : RangeOrder) l σ
    (annotations : gmap string string) :
  maps σ !! l = Some ∅ →
  ∃ m, range_annotations l (iter annotations) σ = Ok tt (set_map l m σ)
       ∧ ∀ name, m !! name
                 = annotations !! ("aic.4paradigm.com/computeunit/" ++ name).
Proof.
  intros Hl. eexists. split.
  - by apply range_annotations_run.
  - intros name. apply computeunits_of_range.
Qed.

(** X2.  The second loop deletes from the working map the entries
    under the names of the containers, and leaves every other entry as
    it was. *)
Theorem second_loop_deletes_named_entries l containers σ
    (m : gmap string string) computeunitList :
  maps σ !! l = Some m →
  ∃ m' computeunitList',
    range_containers l containers computeunitList σ
    = Ok computeunitList' (set_map l m' σ)
    ∧ ∀ name, m' !! name
              = if decide (name ∈ corev1.Name <$> containers) then None
                else m !! name.
Proof.
  intros Hl. do 2 eexists. split.
  - by apply range_containers_run.
  - intros name. apply consume_lookup.
Qed.

(** X3.  When no two containers share a name, the second loop returns
    [computeunitList] extended by the compute unit of each container
    that has an entry in the working map, in the order of the
    containers; a container without entry adds nothing. *)
Theorem second_loop_lists_computeunits l containers σ
    (m : gmap string string) computeunitList :
  NoDup (corev1.Name <$> containers) →
  maps σ !! l = Some m →
  outcome (range_containers l containers computeunitList σ)
  = Some (computeunitList ++ omap (fun c => m !! corev1.Name c) containers)%list.
Proof.
  intros Hnd Hl. rewrite (range_containers_run _ _ _ _ _ Hl). simpl.
  by rewrite consume_list.
Qed.

(** ** Further properties of the decision *)

(** The working map ends empty exactly when each compute-unit
    annotation names a container. *)
Lemma leftover_size_zero iter p :
  Nat.eqb (size (leftover iter p)) 0 = true
  ↔ ∀ name, is_Some (corev1.Annotations p !! (computeunitPrefix ++ name)) →
            name ∈ corev1.Name <$> corev1.Containers (corev1.Spec p).
Proof.
  rewrite Nat.eqb_eq, map_size_empty_iff. split.
  - intros Hempty name [v Hv].
    assert (Hl : leftover iter p !! name = None) by (by rewrite Hempty, lookup_empty).
    rewrite leftover_lookup in Hl. case_decide; [done | congruence].
  - intros Hall. apply leftover_empty. intros name v Hv. apply Hall. by eexists.
Qed.

Lemma leftover_inhabited iter p :
  Nat.eqb (size (leftover iter p)) 0 = false →
  ∃ name v, corev1.Annotations p !! (computeunitPrefix ++ name) = Some v
            ∧ name ∉ corev1.Name <$> corev1.Containers (corev1.Spec p).
Proof.
  intros Hsize. apply Nat.eqb_neq, map_size_non_empty_iff, map_choose in Hsize
    as (name & v & Hl).
  rewrite leftover_lookup in Hl. case_decide; [done |]. eauto.
Qed.

(** No annotation key has the compute-unit prefix exactly when no name
    has a compute-unit annotation. *)
Lemma no_prefixed_key (annotations : gmap string string) :
  (∀ k, k ∈ dom annotations → gostrings.HasPrefix k computeunitPrefix = false)
  ↔ ∀ name, annotations !! (computeunitPrefix ++ name) = None.
Proof.
  split.
  - intros Hkeys name.
    destruct (annotations !! (computeunitPrefix ++ name)) as [v|] eqn:Hv; [| done].
    assert (Hin : computeunitPrefix ++ name ∈ dom annotations)
      by (apply elem_of_dom; by eexists).
    apply Hkeys in Hin. by rewrite HasPrefix_app in Hin.
  - intros Hnone k Hk.
    destruct (gostrings.HasPrefix k computeunitPrefix) eqn:Hp; [| done].
    apply HasPrefix_split in Hp. apply elem_of_dom in Hk as [v Hv].
    rewrite Hp, Hnone in Hv. done.
Qed.

Section further.

Context (universalDeserializer : Deserializer).

Local Abbreviation run := (applySecurityDefaults universalDeserializer).

(** X4.  The function returns an error in two situations only, both on
    a request for [v1/pods]: the deserializer rejects the payload, or
    the pod is activated and has a compute-unit annotation for a name
    that none of its containers has.  Any other request is approved. *)
Theorem error_has_a_cause iter req σ patches msg :
  outcome (run iter req σ) = Some (patches, Some msg) →
  v1beta1.Resource req = podResource
  ∧ ((∃ err, universalDeserializer (v1beta1.Raw (v1beta1.Object req)) = inr err
             ∧ msg = "could not deserialize pod object: " ++ err)
     ∨ (∃ p name v,
          universalDeserializer (v1beta1.Raw (v1beta1.Object req)) = inl p
          ∧ corev1.Annotations p !! "aic.4paradigm.com/app" = Some "true"
          ∧ corev1.Annotations p !! ("aic.4paradigm.com/computeunit/" ++ name) = Some v
          ∧ (name ∉ corev1.Name <$> corev1.Containers (corev1.Spec p))
          ∧ msg = "unexpected computeunit")).
Proof.
  intros Hrun.
  destruct (metav1.gvr_eqb (v1beta1.Resource req) podResource) eqn:Hres.
  - split; [by apply gvr_eqb_eq |].
    destruct (universalDeserializer (v1beta1.Raw (v1beta1.Object req)))
      as [p | err] eqn:Hd.
    + destruct (activated p) eqn:Ha.
      * rewrite (run_active _ _ _ _ _ Hres Hd Ha) in Hrun. simpl in Hrun.
        destruct (Nat.eqb (size (leftover iter p)) 0) eqn:Hsize; simpl in Hrun;
          [done |].
        injection Hrun as <- <-.
        destruct (leftover_inhabited _ _ Hsize) as (name & v & Hv & Hnot).
        right. exists p, name, v. by rewrite <- activated_true.
      * by rewrite (run_inactive _ _ _ _ _ Hres Hd Ha) in Hrun.
    + rewrite (run_undecodable _ _ _ _ _ Hres Hd) in Hrun.
      injection Hrun as <- <-. left. by eexists.
  - by rewrite (run_other_resource _ _ _ _ Hres) in Hrun.
Qed.

(** X5.  On a request for [v1/pods] the payload is decoded once and
    nothing is logged, whether the pod is then approved, refused or
    could not be decoded: the run adds the one decode event to the
    trace. *)
Theorem pod_request_decodes_once iter req σ :
  v1beta1.Resource req = podResource →
  ∃ r σ', run iter req σ = Ok r σ'
          ∧ trace σ' = (trace σ ++ [EvDecode (v1beta1.Raw (v1beta1.Object req))])%list.
Proof.
  intros Hres. apply gvr_eqb_eq in Hres.
  destruct (universalDeserializer (v1beta1.Raw (v1beta1.Object req)))
    as [p | err] eqn:Hd.
  - destruct (activated p) eqn:Ha.
    + rewrite (run_active _ _ _ _ _ Hres Hd Ha). by do 2 eexists.
    + rewrite (run_inactive _ _ _ _ _ Hres Hd Ha). by do 2 eexists.
  - rewrite (run_undecodable _ _ _ _ _ Hres Hd). by do 2 eexists.
Qed.

(** X6.  Of a decoded pod the function reads three things: whether it
    is activated, which names have a compute-unit annotation, and which
    names its containers have.  Two pods that agree on these get the
    same result; the values of the compute-unit annotations, the order
    of the containers and a name occurring twice, and every other
    field and annotation of the pod make no difference. *)
Theorem result_reads_keys_and_names iter1 iter2 req1 req2 σ1 σ2 p1 p2 :
  v1beta1.Resource req1 = podResource →
  v1beta1.Resource req2 = podResource →
  universalDeserializer (v1beta1.Raw (v1beta1.Object req1)) = inl p1 →
  universalDeserializer (v1beta1.Raw (v1beta1.Object req2)) = inl p2 →
  (corev1.Annotations p1 !! "aic.4paradigm.com/app" = Some "true"
   ↔ corev1.Annotations p2 !! "aic.4paradigm.com/app" = Some "true") →
  (∀ name,
     is_Some (corev1.Annotations p1 !! ("aic.4paradigm.com/computeunit/" ++ name))
     ↔ is_Some (corev1.Annotations p2 !! ("aic.4paradigm.com/computeunit/" ++ name))) →
  (∀ name, name ∈ corev1.Name <$> corev1.Containers (corev1.Spec p1)
           ↔ name ∈ corev1.Name <$> corev1.Containers (corev1.Spec p2)) →
  ∃ r, outcome (run iter1 req1 σ1) = Some r ∧ outcome (run iter2 req2 σ2) = Some r.
Proof.
  intros Hres1 Hres2 Hd1 Hd2 Happ Hkeys Hnames.
  apply gvr_eqb_eq in Hres1, Hres2. rewrite <- !activated_true in Happ.
  assert (Hsize : Nat.eqb (size (leftover iter1 p1)) 0
                  = Nat.eqb (size (leftover iter2 p2)) 0).
  { apply eq_true_iff_eq. rewrite !leftover_size_zero. split.
    - intros Hall name Hname. apply Hnames, Hall, Hkeys, Hname.
    - intros Hall name Hname. apply Hnames, Hall, Hkeys, Hname. }
  destruct (activated p1) eqn:Ha1.
  - assert (Ha2 : activated p2 = true) by (by apply Happ).
    rewrite (run_active _ _ _ _ _ Hres1 Hd1 Ha1), (run_active _ _ _ _ _ Hres2 Hd2 Ha2).
    simpl. rewrite Hsize. by eexists.
  - assert (Ha2 : activated p2 = false).
    { destruct (activated p2); [| done].
      destruct Happ as [_ Hback]. discriminate (Hback eq_refl). }
    rewrite (run_inactive _ _ _ _ _ Hres1 Hd1 Ha1), (run_inactive _ _ _ _ _ Hres2 Hd2 Ha2).
    by eexists.
Qed.

(** X7.  Acceptance is kept when containers are added and when
    compute-unit annotations are taken away: if an activated pod is
    approved, so is every pod that has at least its container names
    and at most its compute-unit annotations. *)
Theorem acceptance_is_monotone iter1 iter2 req1 req2 σ1 σ2 p1 p2 :
  v1beta1.Resource req1 = podResource →
  v1beta1.Resource req2 = podResource →
  universalDeserializer (v1beta1.Raw (v1beta1.Object req1)) = inl p1 →
  universalDeserializer (v1beta1.Raw (v1beta1.Object req2)) = inl p2 →
  corev1.Annotations p1 !! "aic.4paradigm.com/app" = Some "true" →
  (∀ name,
     is_Some (corev1.Annotations p2 !! ("aic.4paradigm.com/computeunit/" ++ name))
     → is_Some (corev1.Annotations p1 !! ("aic.4paradigm.com/computeunit/" ++ name))) →
  (∀ name, name ∈ corev1.Name <$> corev1.Containers (corev1.Spec p1)
           → name ∈ corev1.Name <$> corev1.Containers (corev1.Spec p2)) →
  outcome (run iter1 req1 σ1) = Some ([], None) →
  outcome (run iter2 req2 σ2) = Some ([], None).
Proof.
  intros Hres1 Hres2 Hd1 Hd2 Happ Hkeys Hnames Hrun.
  apply gvr_eqb_eq in Hres1, Hres2. apply activated_true in Happ.
  rewrite (run_active _ _ _ _ _ Hres1 Hd1 Happ) in Hrun. simpl in Hrun.
  destruct (Nat.eqb (size (leftover iter1 p1)) 0) eqn:Hsize1; simpl in Hrun; [| done].
  destruct (activated p2) eqn:Ha2.
  - rewrite (run_active _ _ _ _ _ Hres2 Hd2 Ha2). simpl.
    replace (Nat.eqb (size (leftover iter2 p2)) 0) with true; [done |].
    symmetry. apply leftover_size_zero. intros name Hname.
    apply Hnames. apply (proj1 (leftover_size_zero iter1 p1) Hsize1). by apply Hkeys.
  - by rewrite (run_inactive _ _ _ _ _ Hres2 Hd2 Ha2).
Qed.

(** X8.  An activated pod without containers is approved exactly when
    none of its annotation keys starts with the compute-unit prefix;
    with any such key it is refused. *)
Theorem pod_without_containers iter req σ p :
  v1beta1.Resource req = podResource →
  universalDeserializer (v1beta1.Raw (v1beta1.Object req)) = inl p →
  corev1.Annotations p !! "aic.4paradigm.com/app" = Some "true" →
  corev1.Containers (corev1.Spec p) = [] →
  ∃ err, outcome (run iter req σ) = Some ([], err)
         ∧ (err = None
            ↔ ∀ k, k ∈ dom (corev1.Annotations p) →
                   gostrings.HasPrefix k "aic.4paradigm.com/computeunit/" = false)
         ∧ (err ≠ None → err = Some "unexpected computeunit").
Proof.
  intros Hres Hd Happ Hnone.
  apply gvr_eqb_eq in Hres. apply activated_true in Happ.
  rewrite (run_active _ _ _ _ _ Hres Hd Happ). simpl.
  destruct (Nat.eqb (size (leftover iter p)) 0) eqn:Hsize; simpl.
  - eexists. split; [done |]. split; [| done].
    rewrite no_prefixed_key. split; [| done]. intros _ name.
    pose proof (proj1 (leftover_size_zero iter p) Hsize) as Hall.
    destruct (corev1.Annotations p !! _) as [v|] eqn:Hv; [| done].
    assert (Hin : name ∈ corev1.Name <$> corev1.Containers (corev1.Spec p))
      by (apply Hall; by eexists).
    rewrite Hnone in Hin. by apply elem_of_nil in Hin.
  - eexists. split; [done |]. split; [| done].
    rewrite no_prefixed_key. split; [done |]. intros Hall.
    destruct (leftover_inhabited _ _ Hsize) as (name & v & Hv & _).
    by rewrite Hall in Hv.
Qed.

End further.

(** ** The further properties at the sample inputs *)

Lemma first_loop_collects_computeunits_witness :
  ∃ m, range_annotations 1%positive
         (Samples.backward (corev1.Annotations Samples.pod_ghost))
         MoreSamples.fresh_map_store
       = Ok tt (set_map 1%positive m MoreSamples.fresh_map_store)
       ∧ ∀ name, m !! name
                 = corev1.Annotations Samples.pod_ghost
                     !! ("aic.4paradigm.com/computeunit/" ++ name).
Proof.
  apply (first_loop_collects_computeunits Samples.backward 1%positive
           MoreSamples.fresh_map_store (corev1.Annotations Samples.pod_ghost)).
  reflexivity.
Defined.

Lemma second_loop_deletes_named_entries_witness :
  ∃ m' computeunitList',
    range_containers 1%positive [Samples.container "a"; Samples.container "b"] []
      MoreSamples.working_store
    = Ok computeunitList' (set_map 1%positive m' MoreSamples.working_store)
    ∧ ∀ name, m' !! name
              = if decide (name ∈ corev1.Name
                                    <$> [Samples.container "a"; Samples.container "b"])
                then None
                else ({[ "a" := "single-core"; "ghost" := "dual-core" ]}
                        : gmap string string) !! name.
Proof.
  apply (second_loop_deletes_named_entries 1%positive
           [Samples.container "a"; Samples.container "b"] MoreSamples.working_store
           {[ "a" := "single-core"; "ghost" := "dual-core" ]} []).
  reflexivity.
Defined.

Lemma second_loop_lists_computeunits_witness :
  outcome (range_containers 1%positive
             [Samples.container "b"; Samples.container "a"] ["quad-core"]
             MoreSamples.working_store)
  = Some ["quad-core"; "single-core"].
Proof.
  etrans.
  - apply (second_loop_lists_computeunits 1%positive
             [Samples.container "b"; Samples.container "a"] MoreSamples.working_store
             {[ "a" := "single-core"; "ghost" := "dual-core" ]} ["quad-core"]).
    + simpl. apply NoDup_cons. split.
      * intros Hin. apply list_elem_of_singleton in Hin. discriminate Hin.
      * apply NoDup_singleton.
    + reflexivity.
  - vm_compute. reflexivity.
Defined.

Lemma error_has_a_cause_witness :
  podResource = podResource
  ∧ ((∃ err, Samples.deserializer (list_byte_of_string "ghost") = inr err
             ∧ "unexpected computeunit" = "could not deserialize pod object: " ++ err)
     ∨ (∃ p name v,
          Samples.deserializer (list_byte_of_string "ghost") = inl p
          ∧ corev1.Annotations p !! "aic.4paradigm.com/app" = Some "true"
          ∧ corev1.Annotations p !! ("aic.4paradigm.com/computeunit/" ++ name) = Some v
          ∧ (name ∉ corev1.Name <$> corev1.Containers (corev1.Spec p))
          ∧ "unexpected computeunit" = "unexpected computeunit")).
Proof.
  apply (error_has_a_cause Samples.deserializer Samples.forward
           (Samples.request podResource "uid-11" "ghost") Samples.used_store
           [] "unexpected computeunit").
  vm_compute. reflexivity.
Defined.

Lemma pod_request_decodes_once_witness :
  ∃ r σ',
    applySecurityDefaults Samples.deserializer Samples.forward
      (Samples.request podResource "uid-12" "ghost") Samples.used_store = Ok r σ'
    ∧ trace σ' = [EvDecode []; EvDecode (list_byte_of_string "ghost")].
Proof.
  apply (pod_request_decodes_once Samples.deserializer Samples.forward
           (Samples.request podResource "uid-12" "ghost") Samples.used_store).
  reflexivity.
Defined.

Lemma result_reads_keys_and_names_witness :
  ∃ r,
    outcome (applySecurityDefaults MoreSamples.deserializer Samples.forward
               (Samples.request podResource "uid-13" "matched") Samples.empty_store)
    = Some r
    ∧ outcome (applySecurityDefaults MoreSamples.deserializer Samples.backward
                 (Samples.request podResource "uid-14" "revalued") Samples.used_store)
      = Some r.
Proof.
  apply (result_reads_keys_and_names MoreSamples.deserializer
           Samples.forward Samples.backward
           (Samples.request podResource "uid-13" "matched")
           (Samples.request podResource "uid-14" "revalued")
           Samples.empty_store Samples.used_store
           Samples.pod_matched MoreSamples.pod_revalued).
  - reflexivity.
  - reflexivity.
  - reflexivity.
  - reflexivity.
  - split; intros _; vm_compute; reflexivity.
  - intros name. rewrite <- !elem_of_dom.
    replace (dom (corev1.Annotations MoreSamples.pod_revalued))
      with (dom (corev1.Annotations Samples.pod_matched));
      [done | vm_compute; reflexivity].
  - intros name. simpl. rewrite !elem_of_cons. tauto.
Defined.

Lemma acceptance_is_monotone_witness :
  outcome (applySecurityDefaults Samples.deserializer Samples.backward
             (Samples.request podResource "uid-16" "asymmetric") Samples.used_store)
  = Some ([], None).
Proof.
  apply (acceptance_is_monotone Samples.deserializer
           Samples.forward Samples.backward
           (Samples.request podResource "uid-15" "matched")
           (Samples.request podResource "uid-16" "asymmetric")
           Samples.empty_store Samples.used_store
           Samples.pod_matched Samples.pod_asymmetric).
  - reflexivity.
  - reflexivity.
  - reflexivity.
  - reflexivity.
  - vm_compute; reflexivity.
  - intros name Hname. exact Hname.
  - intros name. simpl. rewrite !elem_of_cons. tauto.
  - vm_compute; reflexivity.
Defined.

Lemma pod_without_containers_witness :
  ∃ err,
    outcome (applySecurityDefaults MoreSamples.deserializer Samples.forward
               (Samples.request podResource "uid-17" "bare") Samples.empty_store)
    = Some ([], err)
    ∧ (err = None
       ↔ ∀ k, k ∈ dom (corev1.Annotations MoreSamples.pod_bare) →
              gostrings.HasPrefix k "aic.4paradigm.com/computeunit/" = false)
    ∧ (err ≠ None → err = Some "unexpected computeunit").
Proof.
  apply (pod_without_containers MoreSamples.deserializer Samples.forward
           (Samples.request podResource "uid-17" "bare") Samples.empty_store
           MoreSamples.pod_bare).
  - reflexivity.
  - reflexivity.
  - vm_compute; reflexivity.
  - reflexivity.
Defined.

(** The pod without containers and without compute-unit annotation. *)
Example bare_pod_is_approved :
  outcome (applySecurityDefaults MoreSamples.deserializer Samples.forward
             (Samples.request podResource "uid-17" "bare") Samples.empty_store)
  = Some ([], None).
Proof. vm_compute. reflexivity. Qed.

(** A container listed twice consumes its entry once. *)
Example revalued_pod_is_approved :
  outcome (applySecurityDefaults MoreSamples.deserializer Samples.backward
             (Samples.request podResource "uid-14" "revalued") Samples.used_store)
  = Some ([], None).
Proof. vm_compute. reflexivity. Qed.
